(** * HTTP wrapper of the Neo4j MCP server: query gates and response envelope

    Shallow embedding of [mcp-neo4j/src/http_wrapper.py]: the three tool
    endpoints [get_neo4j_schema], [read_neo4j_cypher] and
    [write_neo4j_cypher], the keyword test both query endpoints run on the
    query text, and the [ToolResponse] envelope they all return.

    The Neo4j driver, the process environment and [str.upper] are outside the
    file; they are the Variables of the sections below, so every theorem
    holds whatever they are.  Text is a [string]: a Python [str] read as its
    sequence of characters (for text that is not ASCII, its UTF-8 bytes, on
    which substring search finds the same occurrences). *)

From Stdlib Require Import String Ascii List ZArith Bool Lia.
From Stdlib Require Import Floats.SpecFloat.
Import ListNotations.

Local Open Scope list_scope.
Local Open Scope string_scope.

(** ** Python values *)

Module Py.

(** A value of type [Any] as it arrives from a JSON body or from the driver. *)
#[warnings="-register-all"]
Inductive value : Type :=
| VNone
| VBool (b : bool)
| VInt (z : Z)
| VFloat (f : spec_float)
| VStr (s : string)
| VList (l : list value)
| VDict (d : list (string * value)).

(** [bool(v)], as [not v] and [if v] use it. *)
Definition truthy (v : value) : bool :=
  match v with
  | VNone => false
  | VBool b => b
  | VInt z => negb (Z.eqb z 0)
  | VFloat (S754_zero _) => false
  | VFloat _ => true
  | VStr s => negb (String.eqb s "")
  | VList l => match l with [] => false | _ :: _ => true end
  | VDict d => match d with [] => false | _ :: _ => true end
  end.

(** [type(v).__name__], which the AttributeError message quotes. *)
Definition type_name (v : value) : string :=
  match v with
  | VNone => "NoneType"
  | VBool _ => "bool"
  | VInt _ => "int"
  | VFloat _ => "float"
  | VStr _ => "str"
  | VList _ => "list"
  | VDict _ => "dict"
  end.

Definition is_str (v : value) : bool :=
  match v with VStr _ => true | _ => false end.

(** An instance of [Exception]: its class name and [str(e)].  The classes of
    the driver (Neo4jError, DriverError) and AttributeError all derive from
    [Exception], which is what the endpoints catch. *)
Record exn : Type := Exn { exc_class : string; exc_str : string }.

Definition AttributeError (v : value) (attr : string) : exn :=
  Exn "AttributeError"
      ("'" ++ type_name v ++ "' object has no attribute '" ++ attr ++ "'").

(** [d.get(key, default)] on a dict kept as an association list. *)
Fixpoint dict_get (d : list (string * value)) (key : string) (default : value)
  : value :=
  match d with
  | [] => default
  | (k, v) :: rest => if String.eqb k key then v else dict_get rest key default
  end.

Fixpoint dict_lookup (d : list (string * value)) (key : string) : option value :=
  match d with
  | [] => None
  | (k, v) :: rest => if String.eqb k key then Some v else dict_lookup rest key
  end.

(** [sub in s] on two [str]: is [sub] a substring of [s]. *)
Fixpoint str_in (sub s : string) : bool :=
  if String.prefix sub s then true
  else match s with
       | EmptyString => false
       | String _ s' => str_in sub s'
       end.

(** [str.upper] on ASCII text: a-z become A-Z, the rest is kept. *)
Definition ascii_upper_char (c : ascii) : ascii :=
  let n := nat_of_ascii c in
  if (Nat.leb 97 n && Nat.leb n 122)%bool then ascii_of_nat (n - 32) else c.

Fixpoint ascii_upper (s : string) : string :=
  match s with
  | EmptyString => EmptyString
  | String c s' => String (ascii_upper_char c) (ascii_upper s')
  end.

End Py.
Import Py.

(** ** The keyword test of the two query endpoints *)

Section Classifier.

(** [str.upper] of the running interpreter. *)
Variable upper : string -> string.

(** [write_keywords], the same literal in both query endpoints. *)
Definition write_keywords : list string :=
  ["MERGE"; "CREATE"; "SET"; "DELETE"; "REMOVE"; "ADD"].

(** [query.upper()]: only a [str] has the method. *)
Definition call_upper (query : value) : exn + string :=
  match query with
  | VStr s => inr (upper s)
  | _ => inl (AttributeError query "upper")
  end.

(** [any(keyword in query.upper() for keyword in keywords)]: the generator
    calls [query.upper()] once per keyword and stops at the first hit. *)
Fixpoint any_keyword_in (query : value) (keywords : list string) : exn + bool :=
  match keywords with
  | [] => inr false
  | keyword :: rest =>
      match call_upper query with
      | inl e => inl e
      | inr text => if str_in keyword text then inr true
                    else any_keyword_in query rest
      end
  end.

End Classifier.

(** ** The driver, as the endpoints see it *)

Module Neo4j.

Inductive RoutingControl : Type := READ | WRITE.

(** [summary.counters]: the attributes the wrapper reads. *)
Record SummaryCounters : Type := {
  nodes_created : Z;
  nodes_deleted : Z;
  relationships_created : Z;
  relationships_deleted : Z;
  properties_set : Z;
  labels_added : Z;
  labels_removed : Z
}.

Record ResultSummary : Type := { counters : SummaryCounters }.

(** One row, as [Record.data()] gives it: column name to value. *)
Definition row : Type := list (string * value).

(** What a finished query holds: the rows, the summary and the column names. *)
Record QueryResult : Type := {
  records : list row;
  summary : ResultSummary;
  keys : list string
}.

(** The arguments of one [execute_query] call.  [parameters_] is [None] when
    the call does not pass it. *)
Record db_call : Type := {
  query_ : value;
  parameters_ : option value;
  routing_control : RoutingControl;
  database_ : value
}.

(** [result_transformer_=lambda r: r.data()]: the rows as a list of dicts. *)
Definition data_transformer (r : QueryResult) : list row := records r.

(** The default transformer: the triple [(records, summary, keys)]. *)
Definition to_eager_result (r : QueryResult)
  : list row * ResultSummary * list string :=
  (records r, summary r, keys r).

End Neo4j.
Import Neo4j.

(** ** Request and response models *)

(** [ToolRequest]: [arguments: Optional[Dict[str, Any]] = {}]. *)
Record ToolRequest : Type := { arguments : option (list (string * value)) }.

(** [ToolResponse]: [data] is [Optional[Any]], so [VNone] is its absence. *)
Record ToolResponse : Type := {
  success : bool;
  data : value;
  error : option string
}.

(** [ToolResponse(success=True, data=d)] and
    [ToolResponse(success=False, error=msg)]; the field left out takes its
    default [None]. *)
Definition response_ok (d : value) : ToolResponse :=
  {| success := true; data := d; error := None |}.

Definition response_error (msg : string) : ToolResponse :=
  {| success := false; data := VNone; error := Some msg |}.

(** ** Handler computations

    A handler runs against the log of driver calls made so far and either
    returns or raises. *)

Definition M (A : Type) : Type := list db_call -> (exn + A) * list db_call.

Definition ret {A : Type} (a : A) : M A := fun log => (inr a, log).

Definition raise {A : Type} (e : exn) : M A := fun log => (inl e, log).

Definition bind {A B : Type} (m : M A) (k : A -> M B) : M B :=
  fun log =>
    match m log with
    | (inl e, log') => (inl e, log')
    | (inr a, log') => k a log'
    end.

(** [try: body except Exception as e: handler(e)]. *)
Definition try_except {A : Type} (body : M A) (handler : exn -> M A) : M A :=
  fun log =>
    match body log with
    | (inl e, log') => handler e log'
    | (inr a, log') => (inr a, log')
    end.

(** A pure expression that may raise. *)
Definition lift {A : Type} (r : exn + A) : M A :=
  match r with
  | inl e => raise e
  | inr a => ret a
  end.

Declare Scope handler_scope.
Delimit Scope handler_scope with handler.
Notation "x <- m ;; k" := (bind m (fun x => k))
  (at level 61, m at next level, right associativity) : handler_scope.

(** The calls a run added to the log, and the value it produced. *)
Definition outcome {A : Type} (m : M A) (log : list db_call) : exn + A :=
  fst (m log).

Definition log_after {A : Type} (m : M A) (log : list db_call) : list db_call :=
  snd (m log).

(** ** The three tool endpoints *)

Section Endpoints.

Local Open Scope handler_scope.

(** [str.upper], [os.environ] and the driver behind [neo4j_driver]: what it
    answers to a call, an exception or a finished query. *)
Variable upper : string -> string.
Variable environ : string -> option string.
Variable run_query : db_call -> exn + QueryResult.

(** [os.getenv(key, default)]. *)
Definition os_getenv (key default : string) : string :=
  match environ key with
  | Some v => v
  | None => default
  end.

(** [await neo4j_driver.execute_query(..., result_transformer_=f)]: the call
    is logged, then the driver's exception is raised or [f] is applied. *)
Definition execute_query {A : Type} (call : db_call)
    (result_transformer_ : QueryResult -> A) : M A :=
  fun log =>
    match run_query call with
    | inl e => (inl e, (log ++ [call])%list)
    | inr r => (inr (result_transformer_ r), (log ++ [call])%list)
    end.

(** [args.get(key, default)] where [args = request.arguments] may be [None]. *)
Definition args_get (args : option (list (string * value)))
    (key : string) (default : value) : M value :=
  match args with
  | Some d => ret (dict_get d key default)
  | None => raise (AttributeError VNone "get")
  end.

Definition get_schema_query : string := "CALL apoc.meta.schema();".

Definition apoc_missing_msg : string :=
  "Neo4j instance does not have the APOC plugin installed. Please install and enable the APOC plugin.".

(** The call of the schema endpoint; it passes no [parameters_]. *)
Definition schema_call : db_call :=
  {| query_ := VStr get_schema_query;
     parameters_ := None;
     routing_control := READ;
     database_ := VStr (os_getenv "NEO4J_DATABASE" "neo4j") |}.

(** [result[0]] on a list. *)
Definition first_item {A : Type} (l : list A) : M A :=
  match l with
  | x :: _ => ret x
  | [] => raise (Exn "IndexError" "list index out of range")
  end.

(** [POST /tools/get_neo4j_schema] *)
Definition get_neo4j_schema (request : ToolRequest) : M ToolResponse :=
  try_except
    (result <- execute_query schema_call data_transformer ;;
     if (match result with [] => false | _ :: _ => true end
         && Nat.ltb 0 (List.length result))%bool
     then
       first <- first_item result ;;
       let schema_data := dict_get first "value" (VDict []) in
       ret (response_ok schema_data)
     else ret (response_ok (VDict [])))
    (fun e =>
       let error_msg :=
         if str_in "Neo.ClientError.Procedure.ProcedureNotFound" (exc_str e)
         then apoc_missing_msg
         else "Neo4j Error: " ++ exc_str e in
       ret (response_error error_msg)).

(** [POST /tools/read_neo4j_cypher] *)
Definition read_neo4j_cypher (request : ToolRequest) : M ToolResponse :=
  try_except
    (let args := arguments request in
     query <- args_get args "query" VNone ;;
     params <- args_get args "params" (VDict []) ;;
     database <- args_get args "database"
                   (VStr (os_getenv "NEO4J_DATABASE" "neo4j")) ;;
     if negb (truthy query)
     then ret (response_error "Query parameter is required")
     else
       is_write <- lift (any_keyword_in upper query write_keywords) ;;
       if is_write
       then ret (response_error "Only MATCH queries are allowed for read-query")
       else
         result <- execute_query
                     {| query_ := query;
                        parameters_ := Some params;
                        routing_control := READ;
                        database_ := database |}
                     data_transformer ;;
         ret (response_ok (VList (List.map VDict result))))
    (fun e => ret (response_error ("Neo4j Error: " ++ exc_str e))).

(** The dict built from [summary.counters]. *)
Definition counters_dict (c : SummaryCounters) : value :=
  VDict [ ("nodesCreated", VInt (nodes_created c));
          ("nodesDeleted", VInt (nodes_deleted c));
          ("relationshipsCreated", VInt (relationships_created c));
          ("relationshipsDeleted", VInt (relationships_deleted c));
          ("propertiesSet", VInt (properties_set c));
          ("labelsAdded", VInt (labels_added c));
          ("labelsRemoved", VInt (labels_removed c)) ].

(** [POST /tools/write_neo4j_cypher] *)
Definition write_neo4j_cypher (request : ToolRequest) : M ToolResponse :=
  try_except
    (let args := arguments request in
     query <- args_get args "query" VNone ;;
     params <- args_get args "params" (VDict []) ;;
     database <- args_get args "database"
                   (VStr (os_getenv "NEO4J_DATABASE" "neo4j")) ;;
     if negb (truthy query)
     then ret (response_error "Query parameter is required")
     else
       is_write <- lift (any_keyword_in upper query write_keywords) ;;
       if negb is_write
       then ret (response_error "Only write queries are allowed for write-query")
       else
         eager <- execute_query
                    {| query_ := query;
                       parameters_ := Some params;
                       routing_control := WRITE;
                       database_ := database |}
                    to_eager_result ;;
         let '(_, summary, _) := eager in
         ret (response_ok (counters_dict (counters summary))))
    (fun e => ret (response_error ("Neo4j Error: " ++ exc_str e))).

(** The routes under [/tools]. *)
Inductive tool : Type := GetSchema | ReadCypher | WriteCypher.

Definition tool_name (t : tool) : string :=
  match t with
  | GetSchema => "get_neo4j_schema"
  | ReadCypher => "read_neo4j_cypher"
  | WriteCypher => "write_neo4j_cypher"
  end.

(** [GET /tools] *)
Definition list_tools : list string :=
  List.map tool_name [GetSchema; ReadCypher; WriteCypher].

Definition post_tool (t : tool) (request : ToolRequest) : M ToolResponse :=
  match t with
  | GetSchema => get_neo4j_schema request
  | ReadCypher => read_neo4j_cypher request
  | WriteCypher => write_neo4j_cypher request
  end.

End Endpoints.

(** ** Vocabulary of the specification *)

(** [sub] occurs somewhere in [s]. *)
Definition Substring (sub s : string) : Prop :=
  exists pre post : string, s = pre ++ sub ++ post.

(** The two shapes of the envelope: a success carrying data (a [data] that
    is not None) and no error, a failure carrying an error message and no
    data. *)
Definition success_data (r : ToolResponse) : Prop :=
  success r = true /\ data r <> VNone /\ error r = None.

Definition failure_error (r : ToolResponse) : Prop :=
  success r = false /\ data r = VNone /\ exists msg, error r = Some msg.

Definition envelope_invariant (r : ToolResponse) : Prop :=
  (success r = true -> error r = None) /\
  (success r = false -> data r = VNone).

(** Text made of ASCII characters only. *)
Definition is_ascii_char (c : ascii) : bool := Nat.ltb (nat_of_ascii c) 128.

Fixpoint is_ascii (s : string) : bool :=
  match s with
  | EmptyString => true
  | String c s' => (is_ascii_char c && is_ascii s')%bool
  end.

(** The call a query endpoint makes once the query passed its gate. *)
Definition query_call (environ : string -> option string)
    (routing : RoutingControl) (args : list (string * value)) : db_call :=
  {| query_ := dict_get args "query" VNone;
     parameters_ := Some (dict_get args "params" (VDict []));
     routing_control := routing;
     database_ :=
       dict_get args "database" (VStr (os_getenv environ "NEO4J_DATABASE" "neo4j")) |}.

(** ** Concrete collaborators, to run the endpoints on *)

Module Demo.

Definition no_environ (key : string) : option string := None.

Definition zero_counters : SummaryCounters :=
  {| nodes_created := 0; nodes_deleted := 0;
     relationships_created := 0; relationships_deleted := 0;
     properties_set := 0; labels_added := 0; labels_removed := 0 |}.

(** An empty graph: a read finds no row, a write creates one labelled node
    and returns it. *)
Definition empty_graph (call : db_call) : exn + QueryResult :=
  match routing_control call with
  | READ =>
      inr {| records := [];
             summary := {| counters := zero_counters |};
             keys := ["n"] |}
  | WRITE =>
      inr {| records := [[("n", VDict [])]];
             summary := {| counters :=
               {| nodes_created := 1; nodes_deleted := 0;
                  relationships_created := 0; relationships_deleted := 0;
                  properties_set := 0; labels_added := 1;
                  labels_removed := 0 |} |};
             keys := ["n"] |}
  end.

(** A server with the APOC plugin: the schema call returns one record. *)
Definition apoc_schema : value :=
  VDict [("Person", VDict [("type", VStr "node"); ("count", VInt 3)])].

Definition with_apoc (call : db_call) : exn + QueryResult :=
  inr {| records := [[("value", apoc_schema)]];
         summary := {| counters := zero_counters |};
         keys := ["value"] |}.

(** A server whose schema record holds a null [value]. *)
Definition null_schema (call : db_call) : exn + QueryResult :=
  inr {| records := [[("value", VNone)]];
         summary := {| counters := zero_counters |};
         keys := ["value"] |}.

(** A server without the plugin, and one that is down. *)
Definition without_apoc (call : db_call) : exn + QueryResult :=
  inl (Exn "ClientError"
    "{code: Neo.ClientError.Procedure.ProcedureNotFound} {message: There is no procedure with the name `apoc.meta.schema` registered for this database instance.}").

Definition unavailable (call : db_call) : exn + QueryResult :=
  inl (Exn "ServiceUnavailable" "Unable to retrieve routing information").

Definition request_of (query : value) : ToolRequest :=
  {| arguments := Some [("query", query)] |}.

(** A graph with two people; every query returns both. *)
Definition people (call : db_call) : exn + QueryResult :=
  inr {| records := [[("name", VStr "Ada")]; [("name", VStr "Alan")]];
         summary := {| counters := zero_counters |};
         keys := ["name"] |}.

(** A request that names its parameters and its database. *)
Definition full_request : ToolRequest :=
  {| arguments :=
       Some [("query", VStr "MATCH (p:Person) WHERE p.name = $name RETURN p");
             ("params", VDict [("name", VStr "Ada")]);
             ("database", VStr "people")] |}.

End Demo.

(** ** The process: globals, startup and shutdown

    The endpoints reach the driver through the global [neo4j_driver], which
    is [None] until [initialize] has run.  The handlers below are the same
    three bodies, run against the globals instead of a driver that is known
    to be there. *)

Module App.

Section Process.

Local Open Scope handler_scope.

Variable upper : string -> string.
Variable environ : string -> option string.

(** The driver object and the MCP server object, and the library calls that
    build, use and close them: [AsyncGraphDatabase.driver(url, auth=...)],
    [create_mcp_server(driver, database, namespace)],
    [driver.execute_query(...)] and [driver.close()]. *)
Variable Driver : Type.
Variable McpServer : Type.
Variable new_driver : string -> string * string -> exn + Driver.
Variable create_mcp_server : Driver -> string -> string -> exn + McpServer.
Variable run_query : Driver -> db_call -> exn + QueryResult.
Variable close : Driver -> option exn.

(** The two module globals. *)
Record Globals : Type := {
  neo4j_driver : option Driver;
  mcp_server : option McpServer
}.

(** Their value when the module is loaded. *)
Definition at_import : Globals :=
  {| neo4j_driver := None; mcp_server := None |}.

(** [initialize]: reads the five settings, builds the driver, stores it,
    builds the MCP server, stores it.  An exception of either constructor
    propagates and leaves what was not yet assigned as it was. *)
Definition initialize (g : Globals) : option exn * Globals :=
  let db_url := os_getenv environ "NEO4J_URI" "bolt://localhost:7687" in
  let username := os_getenv environ "NEO4J_USERNAME" "neo4j" in
  let password := os_getenv environ "NEO4J_PASSWORD" "password" in
  let database := os_getenv environ "NEO4J_DATABASE" "neo4j" in
  let namespace := os_getenv environ "NEO4J_NAMESPACE" "" in
  match new_driver db_url (username, password) with
  | inl e => (Some e, g)
  | inr driver =>
      let g1 := {| neo4j_driver := Some driver; mcp_server := mcp_server g |} in
      match create_mcp_server driver database namespace with
      | inl e => (Some e, g1)
      | inr server =>
          (None, {| neo4j_driver := Some driver; mcp_server := Some server |})
      end
  end.

Definition startup_event (g : Globals) : option exn * Globals := initialize g.

(** [shutdown_event]: [if neo4j_driver: await neo4j_driver.close()].  A
    driver object is truthy.  The second component lists the drivers on
    which [close] was called; the globals are not touched. *)
Definition shutdown_event (g : Globals) (closed : list Driver)
  : option exn * list Driver :=
  match neo4j_driver g with
  | Some driver => (close driver, (closed ++ [driver])%list)
  | None => (None, closed)
  end.

(** [await neo4j_driver.execute_query(...)] on the global. *)
Definition driver_execute_query {A : Type} (g : Globals) (call : db_call)
    (result_transformer_ : QueryResult -> A) : M A :=
  match neo4j_driver g with
  | None => raise (AttributeError VNone "execute_query")
  | Some driver => execute_query (run_query driver) call result_transformer_
  end.

(** [POST /tools/get_neo4j_schema] *)
Definition get_neo4j_schema (g : Globals) (request : ToolRequest)
  : M ToolResponse :=
  try_except
    (result <- driver_execute_query g (schema_call environ) data_transformer ;;
     if (match result with [] => false | _ :: _ => true end
         && Nat.ltb 0 (List.length result))%bool
     then
       first <- first_item result ;;
       let schema_data := dict_get first "value" (VDict []) in
       ret (response_ok schema_data)
     else ret (response_ok (VDict [])))
    (fun e =>
       let error_msg :=
         if str_in "Neo.ClientError.Procedure.ProcedureNotFound" (exc_str e)
         then apoc_missing_msg
         else "Neo4j Error: " ++ exc_str e in
       ret (response_error error_msg)).

(** [POST /tools/read_neo4j_cypher] *)
Definition read_neo4j_cypher (g : Globals) (request : ToolRequest)
  : M ToolResponse :=
  try_except
    (let args := arguments request in
     query <- args_get args "query" VNone ;;
     params <- args_get args "params" (VDict []) ;;
     database <- args_get args "database"
                   (VStr (os_getenv environ "NEO4J_DATABASE" "neo4j")) ;;
     if negb (truthy query)
     then ret (response_error "Query parameter is required")
     else
       is_write <- lift (any_keyword_in upper query write_keywords) ;;
       if is_write
       then ret (response_error "Only MATCH queries are allowed for read-query")
       else
         result <- driver_execute_query g
                     {| query_ := query;
                        parameters_ := Some params;
                        routing_control := READ;
                        database_ := database |}
                     data_transformer ;;
         ret (response_ok (VList (List.map VDict result))))
    (fun e => ret (response_error ("Neo4j Error: " ++ exc_str e))).

(** [POST /tools/write_neo4j_cypher] *)
Definition write_neo4j_cypher (g : Globals) (request : ToolRequest)
  : M ToolResponse :=
  try_except
    (let args := arguments request in
     query <- args_get args "query" VNone ;;
     params <- args_get args "params" (VDict []) ;;
     database <- args_get args "database"
                   (VStr (os_getenv environ "NEO4J_DATABASE" "neo4j")) ;;
     if negb (truthy query)
     then ret (response_error "Query parameter is required")
     else
       is_write <- lift (any_keyword_in upper query write_keywords) ;;
       if negb is_write
       then ret (response_error "Only write queries are allowed for write-query")
       else
         eager <- driver_execute_query g
                    {| query_ := query;
                       parameters_ := Some params;
                       routing_control := WRITE;
                       database_ := database |}
                    to_eager_result ;;
         let '(_, summary, _) := eager in
         ret (response_ok (counters_dict (counters summary))))
    (fun e => ret (response_error ("Neo4j Error: " ++ exc_str e))).

Definition post_tool (g : Globals) (t : tool) (request : ToolRequest)
  : M ToolResponse :=
  match t with
  | GetSchema => get_neo4j_schema g request
  | ReadCypher => read_neo4j_cypher g request
  | WriteCypher => write_neo4j_cypher g request
  end.

End Process.

End App.

(** A concrete process: a driver handle is its URI and credentials, the
    server behind every handle is the empty graph of [Demo]. *)
Module DemoApp.

Definition Driver : Type := string * (string * string).

Definition McpServer : Type := Driver * string * string.

Definition new_driver (url : string) (auth : string * string) : exn + Driver :=
  inr (url, auth).

Definition create_mcp_server (driver : Driver) (database namespace : string)
  : exn + McpServer :=
  inr (driver, database, namespace).

Definition run_query (driver : Driver) : db_call -> exn + QueryResult :=
  Demo.empty_graph.

Definition close (driver : Driver) : option exn := None.

Definition started : App.Globals Driver McpServer :=
  snd (App.initialize Demo.no_environ Driver McpServer new_driver
         create_mcp_server (App.at_import Driver McpServer)).


End DemoApp.

(** * Properties *)

(** ** Substring search *)

Lemma prefix_iff_append (sub s : string) :
  String.prefix sub s = true <-> exists post, s = sub ++ post.
Proof.
  revert s. induction sub as [|a sub IH]; intros s.
  - split; [intros _; now exists s | intros _; destruct s; reflexivity].
  - destruct s as [|b s]; simpl.
    + split; [discriminate | intros [post H]; discriminate H].
    + destruct (ascii_dec a b) as [->|Hab].
      * rewrite IH. split; intros [post H]; exists post.
        -- now rewrite H.
        -- now inversion H.
      * split; [discriminate|].
        intros [post H]. inversion H. congruence.
Qed.

(** [str_in] decides occurrence as a substring. *)
Lemma str_in_iff_Substring (sub s : string) :
  str_in sub s = true <-> Substring sub s.
Proof.
  unfold Substring. induction s as [|c s IH].
  - cbn [str_in]. destruct (String.prefix sub "") eqn:Hp.
    + split; [intros _ | reflexivity].
      apply prefix_iff_append in Hp. destruct Hp as [post H].
      now exists "", post.
    + split; [discriminate|]. intros (pre & post & H).
      destruct pre; [|discriminate H]. simpl in H.
      assert (String.prefix sub "" = true) as Hp'
        by (apply prefix_iff_append; now exists post).
      congruence.
  - cbn [str_in]. destruct (String.prefix sub (String c s)) eqn:Hp.
    + split; [intros _ | reflexivity].
      apply prefix_iff_append in Hp. destruct Hp as [post H].
      now exists "", post.
    + rewrite IH. split.
      * intros (pre & post & H). exists (String c pre), post.
        simpl. now rewrite H.
      * intros (pre & post & H). destruct pre as [|c' pre].
        -- simpl in H.
           assert (String.prefix sub (String c s) = true) as Hp'
             by (apply prefix_iff_append; now exists post).
           congruence.
        -- simpl in H. inversion H. now exists pre, post.
Qed.

Lemma str_in_false_iff (sub s : string) :
  str_in sub s = false <-> ~ Substring sub s.
Proof.
  rewrite <- str_in_iff_Substring. destruct (str_in sub s); intuition congruence.
Qed.

(** ** Uppercasing of ASCII text *)

Lemma ascii_upper_char_idempotent (c : ascii) :
  ascii_upper_char (ascii_upper_char c) = ascii_upper_char c.
Proof. destruct c as [[] [] [] [] [] [] [] []]; reflexivity. Qed.

Lemma ascii_upper_idempotent (s : string) :
  ascii_upper (ascii_upper s) = ascii_upper s.
Proof.
  induction s as [|c s IH]; simpl; [reflexivity|].
  now rewrite ascii_upper_char_idempotent, IH.
Qed.

(** On ASCII text the keyword test does not see the case of the query. *)
Lemma keyword_test_ignores_ascii_case (q : string) (keywords : list string) :
  any_keyword_in ascii_upper (VStr (ascii_upper q)) keywords =
  any_keyword_in ascii_upper (VStr q) keywords.
Proof.
  induction keywords as [|k rest IH]; simpl; [reflexivity|].
  rewrite ascii_upper_idempotent.
  destruct (str_in k (ascii_upper q)); [reflexivity|].
  simpl in IH. exact IH.
Qed.

(** ** The keyword test *)

Section ClassifierFacts.

Variable upper : string -> string.

(** On a [str] the generator never raises and is the disjunction over the
    keywords. *)
Lemma any_keyword_in_str (q : string) (keywords : list string) :
  any_keyword_in upper (VStr q) keywords =
  inr (existsb (fun keyword => str_in keyword (upper q)) keywords).
Proof.
  induction keywords as [|k rest IH]; simpl; [reflexivity|].
  destruct (str_in k (upper q)); [reflexivity | exact IH].
Qed.

(** On anything else the first [query.upper()] raises. *)
Lemma any_keyword_in_non_str (v : value) (k : string) (rest : list string) :
  is_str v = false ->
  any_keyword_in upper v (k :: rest) = inl (AttributeError v "upper").
Proof. destruct v; simpl; intros H; try reflexivity; discriminate H. Qed.

(** C1: the keyword test of both query endpoints answers [True] on a query
    string exactly when one of MERGE, CREATE, SET, DELETE, REMOVE, ADD occurs
    as a substring of the uppercased text, and answers [False] on every
    other string; it never raises on a string. *)
Theorem classifier_write_iff_keyword_substring (q : string) :
  exists is_write : bool,
    any_keyword_in upper (VStr q) write_keywords = inr is_write /\
    (is_write = true <->
       exists keyword,
         In keyword ["MERGE"; "CREATE"; "SET"; "DELETE"; "REMOVE"; "ADD"] /\
         Substring keyword (upper q)) /\
    (is_write = false <->
       forall keyword,
         In keyword ["MERGE"; "CREATE"; "SET"; "DELETE"; "REMOVE"; "ADD"] ->
         ~ Substring keyword (upper q)).
Proof.
  exists (existsb (fun keyword => str_in keyword (upper q)) write_keywords).
  split; [apply any_keyword_in_str|].
  assert (existsb (fun keyword => str_in keyword (upper q)) write_keywords = true
          <-> exists keyword, In keyword write_keywords /\
                              Substring keyword (upper q)) as Hiff.
  { rewrite existsb_exists. split; intros (k & Hin & Hk); exists k; split; auto;
      now apply str_in_iff_Substring. }
  split; [exact Hiff|].
  destruct (existsb _ write_keywords).
  - split; [discriminate|]. intros Hno.
    destruct (proj1 Hiff eq_refl) as (k & Hin & Hk). now apply Hno in Hk.
  - split; [|reflexivity]. intros _ k Hin Hk.
    assert (false = true) by (apply Hiff; now exists k). discriminate.
Qed.

End ClassifierFacts.

(** ** The endpoints, path by path *)

Lemma dict_get_lookup (d : list (string * value)) (key : string) (default : value) :
  dict_get d key default =
  match dict_lookup d key with Some v => v | None => default end.
Proof.
  induction d as [|[k v] d IH]; simpl; [reflexivity|].
  destruct (String.eqb k key); [reflexivity | exact IH].
Qed.

Lemma log_not_extended (log : list db_call) (call : db_call) :
  log <> (log ++ [call])%list.
Proof.
  intros H. apply (f_equal (@List.length db_call)) in H.
  rewrite length_app in H. simpl in H. lia.
Qed.

Section EndpointFacts.

Variable upper : string -> string.
Variable environ : string -> option string.
Variable run_query : db_call -> exn + QueryResult.

(** Every path of the schema endpoint. *)
Lemma get_neo4j_schema_paths (request : ToolRequest) (log : list db_call) :
  get_neo4j_schema environ run_query request log =
  (inr match run_query (schema_call environ) with
       | inl e =>
           response_error
             (if str_in "Neo.ClientError.Procedure.ProcedureNotFound" (exc_str e)
              then apoc_missing_msg
              else "Neo4j Error: " ++ exc_str e)
       | inr r =>
           match records r with
           | [] => response_ok (VDict [])
           | first :: _ => response_ok (dict_get first "value" (VDict []))
           end
       end,
   (log ++ [schema_call environ])%list).
Proof.
  unfold get_neo4j_schema, try_except, bind, execute_query.
  destruct (run_query (schema_call environ)) as [e|r]; [reflexivity|].
  unfold data_transformer. destruct (records r); reflexivity.
Qed.

(** Every path of the read endpoint. *)
Lemma read_neo4j_cypher_paths (request : ToolRequest) (log : list db_call) :
  read_neo4j_cypher upper environ run_query request log =
  match arguments request with
  | None => (inr (response_error ("Neo4j Error: " ++ exc_str (AttributeError VNone "get"))), log)
  | Some args =>
      let query := dict_get args "query" VNone in
      if truthy query then
        match any_keyword_in upper query write_keywords with
        | inl e => (inr (response_error ("Neo4j Error: " ++ exc_str e)), log)
        | inr true =>
            (inr (response_error "Only MATCH queries are allowed for read-query"), log)
        | inr false =>
            (inr match run_query (query_call environ READ args) with
                 | inl e => response_error ("Neo4j Error: " ++ exc_str e)
                 | inr r => response_ok (VList (List.map VDict (records r)))
                 end,
             (log ++ [query_call environ READ args])%list)
        end
      else (inr (response_error "Query parameter is required"), log)
  end.
Proof.
  unfold read_neo4j_cypher, try_except, bind.
  destruct (arguments request) as [args|]; [|reflexivity].
  cbn [args_get ret]. destruct (truthy (dict_get args "query" VNone)); [|reflexivity].
  cbn [negb]. unfold lift.
  destruct (any_keyword_in upper (dict_get args "query" VNone) write_keywords)
    as [e|[|]]; try reflexivity.
  unfold execute_query, query_call.
  destruct (run_query _); reflexivity.
Qed.

(** Every path of the write endpoint. *)
Lemma write_neo4j_cypher_paths (request : ToolRequest) (log : list db_call) :
  write_neo4j_cypher upper environ run_query request log =
  match arguments request with
  | None => (inr (response_error ("Neo4j Error: " ++ exc_str (AttributeError VNone "get"))), log)
  | Some args =>
      let query := dict_get args "query" VNone in
      if truthy query then
        match any_keyword_in upper query write_keywords with
        | inl e => (inr (response_error ("Neo4j Error: " ++ exc_str e)), log)
        | inr false =>
            (inr (response_error "Only write queries are allowed for write-query"), log)
        | inr true =>
            (inr match run_query (query_call environ WRITE args) with
                 | inl e => response_error ("Neo4j Error: " ++ exc_str e)
                 | inr r => response_ok (counters_dict (counters (summary r)))
                 end,
             (log ++ [query_call environ WRITE args])%list)
        end
      else (inr (response_error "Query parameter is required"), log)
  end.
Proof.
  unfold write_neo4j_cypher, try_except, bind.
  destruct (arguments request) as [args|]; [|reflexivity].
  cbn [args_get ret]. destruct (truthy (dict_get args "query" VNone)); [|reflexivity].
  cbn [negb]. unfold lift.
  destruct (any_keyword_in upper (dict_get args "query" VNone) write_keywords)
    as [e|[|]]; try reflexivity.
  unfold execute_query, query_call.
  destruct (run_query _); reflexivity.
Qed.

(** Each endpoint makes at most one driver call. *)
Lemma post_tool_at_most_one_call (t : tool) (request : ToolRequest)
    (log : list db_call) :
  log_after (post_tool upper environ run_query t request) log = log \/
  exists call,
    log_after (post_tool upper environ run_query t request) log
    = (log ++ [call])%list.
Proof.
  unfold log_after. destruct t; cbn [post_tool].
  - rewrite get_neo4j_schema_paths. right. now eexists.
  - rewrite read_neo4j_cypher_paths.
    destruct (arguments request) as [args|]; [|now left]. cbv zeta.
    destruct (truthy _); [|now left].
    destruct (any_keyword_in _ _ _) as [e|[|]]; try (now left).
    right. now eexists.
  - rewrite write_neo4j_cypher_paths.
    destruct (arguments request) as [args|]; [|now left]. cbv zeta.
    destruct (truthy _); [|now left].
    destruct (any_keyword_in _ _ _) as [e|[|]]; try (now left).
    right. now eexists.
Qed.

(** The gate of a query endpoint on a request whose [query] is a non-empty
    string: the test runs on that string. *)
Lemma query_gate_on_string (args : list (string * value)) (q : string) :
  dict_lookup args "query" = Some (VStr q) ->
  q <> "" ->
  dict_get args "query" VNone = VStr q /\ truthy (VStr q) = true.
Proof.
  intros Hq Hne. rewrite dict_get_lookup, Hq. split; [reflexivity|].
  simpl. destruct (String.eqb_spec q ""); [contradiction | reflexivity].
Qed.

(** C2: on the read endpoint a request whose [query] is a non-empty string
    that the keyword test classifies as write gets exactly the failure
    response with the "Only MATCH queries" message, and the log of driver
    calls is unchanged. *)
Theorem read_rejects_write_query (request : ToolRequest)
    (args : list (string * value)) (q : string) (log : list db_call) :
  arguments request = Some args ->
  dict_lookup args "query" = Some (VStr q) ->
  q <> "" ->
  any_keyword_in upper (VStr q) write_keywords = inr true ->
  read_neo4j_cypher upper environ run_query request log =
  (inr {| success := false;
          data := VNone;
          error := Some "Only MATCH queries are allowed for read-query" |},
   log).
Proof.
  intros Hargs Hq Hne Hw.
  destruct (query_gate_on_string args q Hq Hne) as [Hget Htr].
  rewrite read_neo4j_cypher_paths, Hargs. cbv zeta.
  rewrite Hget, Htr, Hw. reflexivity.
Qed.

(** C3: on the write endpoint a request whose [query] is a non-empty string
    that the keyword test classifies as read gets exactly the failure
    response with the "Only write queries" message, and the log of driver
    calls is unchanged. *)
Theorem write_rejects_read_query (request : ToolRequest)
    (args : list (string * value)) (q : string) (log : list db_call) :
  arguments request = Some args ->
  dict_lookup args "query" = Some (VStr q) ->
  q <> "" ->
  any_keyword_in upper (VStr q) write_keywords = inr false ->
  write_neo4j_cypher upper environ run_query request log =
  (inr {| success := false;
          data := VNone;
          error := Some "Only write queries are allowed for write-query" |},
   log).
Proof.
  intros Hargs Hq Hne Hw.
  destruct (query_gate_on_string args q Hq Hne) as [Hget Htr].
  rewrite write_neo4j_cypher_paths, Hargs. cbv zeta.
  rewrite Hget, Htr, Hw. reflexivity.
Qed.

(** X7: when [arguments] is a mapping, a missing or falsy [query] is answered
    with "Query parameter is required" by both query endpoints, without a
    driver call. *)
Lemma missing_query_rejected (t : tool) (request : ToolRequest)
    (args : list (string * value)) (log : list db_call) :
  t <> GetSchema ->
  arguments request = Some args ->
  match dict_lookup args "query" with
  | None => True
  | Some v => truthy v = false
  end ->
  post_tool upper environ run_query t request log =
  (inr {| success := false;
          data := VNone;
          error := Some "Query parameter is required" |},
   log).
Proof.
  intros Ht Hargs Hq.
  assert (truthy (dict_get args "query" VNone) = false) as Hfalsy.
  { rewrite dict_get_lookup. destruct (dict_lookup args "query"); auto. }
  destruct t; [contradiction| |]; cbn [post_tool].
  - rewrite read_neo4j_cypher_paths, Hargs. cbv zeta. now rewrite Hfalsy.
  - rewrite write_neo4j_cypher_paths, Hargs. cbv zeta. now rewrite Hfalsy.
Qed.

(** C6: with [arguments] null, so that no [query] is given, both query
    endpoints answer with the text of the AttributeError that [args.get]
    raises, under the "Neo4j Error" prefix, and not with "Query parameter is
    required"; no driver call is made. *)
Theorem null_arguments_not_reported_as_missing_query (log : list db_call) :
  read_neo4j_cypher upper environ run_query {| arguments := None |} log =
  (inr {| success := false;
          data := VNone;
          error := Some "Neo4j Error: 'NoneType' object has no attribute 'get'" |},
   log) /\
  write_neo4j_cypher upper environ run_query {| arguments := None |} log =
  (inr {| success := false;
          data := VNone;
          error := Some "Neo4j Error: 'NoneType' object has no attribute 'get'" |},
   log) /\
  outcome (read_neo4j_cypher upper environ run_query {| arguments := None |}) log
  <> inr {| success := false;
            data := VNone;
            error := Some "Query parameter is required" |} /\
  outcome (write_neo4j_cypher upper environ run_query {| arguments := None |}) log
  <> inr {| success := false;
            data := VNone;
            error := Some "Query parameter is required" |}.
Proof.
  unfold outcome.
  rewrite read_neo4j_cypher_paths, write_neo4j_cypher_paths.
  repeat split; discriminate.
Qed.

(** C10: on either query endpoint a request whose [query] is truthy and not
    a string gets a failure response whose message is "Neo4j Error: "
    followed by the text of the AttributeError of [query.upper()]; the
    handler returns it (nothing propagates) and the log of driver calls is
    unchanged. *)
Theorem non_string_query_caught (t : tool) (request : ToolRequest)
    (args : list (string * value)) (v : value) (log : list db_call) :
  t <> GetSchema ->
  arguments request = Some args ->
  dict_lookup args "query" = Some v ->
  truthy v = true ->
  is_str v = false ->
  post_tool upper environ run_query t request log =
  (inr {| success := false;
          data := VNone;
          error := Some ("Neo4j Error: "
                         ++ "'" ++ type_name v
                         ++ "' object has no attribute 'upper'") |},
   log).
Proof.
  intros Ht Hargs Hq Htr Hns.
  assert (dict_get args "query" VNone = v) as Hget
    by (now rewrite dict_get_lookup, Hq).
  pose proof (any_keyword_in_non_str upper v "MERGE"
                ["CREATE"; "SET"; "DELETE"; "REMOVE"; "ADD"] Hns) as Hany.
  fold write_keywords in Hany.
  destruct t; [contradiction| |]; cbn [post_tool].
  - rewrite read_neo4j_cypher_paths, Hargs. cbv zeta.
    rewrite Hget, Htr, Hany. reflexivity.
  - rewrite write_neo4j_cypher_paths, Hargs. cbv zeta.
    rewrite Hget, Htr, Hany. reflexivity.
Qed.

(** C4: when an endpoint made its driver call and the driver raised [e] on
    it, the handler returns (nothing propagates) a failure response whose
    error is "Neo4j Error: " followed by [str(e)]; on the schema endpoint a
    [str(e)] that contains the ProcedureNotFound code is replaced by the
    message asking to install the APOC plugin. *)
Theorem driver_exception_reported (t : tool) (request : ToolRequest)
    (log : list db_call) (call : db_call) (e : exn) :
  log_after (post_tool upper environ run_query t request) log
  = (log ++ [call])%list ->
  run_query call = inl e ->
  outcome (post_tool upper environ run_query t request) log =
  inr {| success := false;
         data := VNone;
         error :=
           Some match t with
                | GetSchema =>
                    if str_in "Neo.ClientError.Procedure.ProcedureNotFound"
                              (exc_str e)
                    then "Neo4j instance does not have the APOC plugin installed. Please install and enable the APOC plugin."
                    else "Neo4j Error: " ++ exc_str e
                | ReadCypher | WriteCypher => "Neo4j Error: " ++ exc_str e
                end |}.
Proof.
  unfold log_after, outcome. destruct t; cbn [post_tool].
  - rewrite get_neo4j_schema_paths. cbn [fst snd]. intros Hlog Hrun.
    apply app_inj_tail in Hlog. destruct Hlog as [_ ->].
    rewrite Hrun. reflexivity.
  - rewrite read_neo4j_cypher_paths.
    destruct (arguments request) as [args|]; cbv zeta; cbn [fst snd];
      [|intros Hlog; now apply log_not_extended in Hlog].
    destruct (truthy _);
      [|cbn [fst snd]; intros Hlog; now apply log_not_extended in Hlog].
    destruct (any_keyword_in _ _ _) as [e'|[|]]; cbn [fst snd]; intros Hlog;
      try (now apply log_not_extended in Hlog).
    apply app_inj_tail in Hlog. destruct Hlog as [_ ->].
    intros Hrun. rewrite Hrun. reflexivity.
  - rewrite write_neo4j_cypher_paths.
    destruct (arguments request) as [args|]; cbv zeta; cbn [fst snd];
      [|intros Hlog; now apply log_not_extended in Hlog].
    destruct (truthy _);
      [|cbn [fst snd]; intros Hlog; now apply log_not_extended in Hlog].
    destruct (any_keyword_in _ _ _) as [e'|[|]]; cbn [fst snd]; intros Hlog;
      try (now apply log_not_extended in Hlog).
    apply app_inj_tail in Hlog. destruct Hlog as [_ ->].
    intros Hrun. rewrite Hrun. reflexivity.
Qed.

Lemma response_error_failure (msg : string) :
  envelope_invariant (response_error msg) /\
  failure_error (response_error msg) /\
  ~ success_data (response_error msg).
Proof.
  unfold envelope_invariant, failure_error, success_data. cbn.
  repeat split; try discriminate; eauto. intros [H _]. discriminate H.
Qed.

Lemma response_ok_success (d : value) :
  d <> VNone ->
  envelope_invariant (response_ok d) /\
  success_data (response_ok d) /\
  ~ failure_error (response_ok d).
Proof.
  intros Hd. unfold envelope_invariant, failure_error, success_data. cbn.
  repeat split; try discriminate; auto. intros [H _]. discriminate H.
Qed.

Lemma response_ok_null :
  envelope_invariant (response_ok VNone) /\
  ~ success_data (response_ok VNone) /\
  ~ failure_error (response_ok VNone).
Proof.
  unfold envelope_invariant, failure_error, success_data. cbn.
  repeat split; try discriminate.
  - intros (_ & H & _). now apply H.
  - intros [H _]. discriminate H.
Qed.

Lemma failure_shape (msg : string) (P : Prop) :
  envelope_invariant (response_error msg) /\
  ~ (success_data (response_error msg) /\ failure_error (response_error msg)) /\
  (success_data (response_error msg) \/ failure_error (response_error msg) \/ P).
Proof. destruct (response_error_failure msg) as (Hi & Hf & Hn). tauto. Qed.

Lemma success_shape (d : value) (P : Prop) :
  d <> VNone ->
  envelope_invariant (response_ok d) /\
  ~ (success_data (response_ok d) /\ failure_error (response_ok d)) /\
  (success_data (response_ok d) \/ failure_error (response_ok d) \/ P).
Proof.
  intros Hd. destruct (response_ok_success d Hd) as (Hi & Hs & Hn). tauto.
Qed.

(** C5 (as amended): whatever the request, the driver and the path taken,
    each of the three endpoints returns a response (nothing propagates) in
    which success=true comes with no error and success=false comes with no
    data.  The response is a success carrying data or a failure carrying an
    error message, never both; the one response that is neither is the
    schema endpoint's success with data None, given when the [value] of the
    first record the driver returned is itself None. *)
Theorem every_response_tagged (t : tool) (request : ToolRequest)
    (log : list db_call) :
  exists r : ToolResponse,
    outcome (post_tool upper environ run_query t request) log = inr r /\
    envelope_invariant r /\
    ~ (success_data r /\ failure_error r) /\
    (success_data r \/ failure_error r \/
     t = GetSchema /\
     r = {| success := true; data := VNone; error := None |} /\
     exists result first rest,
       run_query (schema_call environ) = inr result /\
       records result = first :: rest /\
       dict_lookup first "value" = Some VNone).
Proof.
  unfold outcome. destruct t; cbn [post_tool].
  - rewrite get_neo4j_schema_paths. cbn [fst]. eexists. split; [reflexivity|].
    destruct (run_query (schema_call environ)) as [e|result] eqn:Hrun;
      [apply failure_shape|].
    destruct (records result) as [|first rest] eqn:Hrec;
      [apply success_shape; discriminate|].
    rewrite dict_get_lookup.
    destruct (dict_lookup first "value") as [v|] eqn:Hval;
      [|apply success_shape; discriminate].
    destruct v; try (apply success_shape; discriminate).
    destruct response_ok_null as (Hi & Hns & Hnf).
    split; [exact Hi|]. split; [tauto|]. right. right.
    split; [reflexivity|]. split; [reflexivity|].
    now exists result, first, rest.
  - rewrite read_neo4j_cypher_paths.
    destruct (arguments request) as [args|]; cbv zeta;
      [|eexists; split; [reflexivity | apply failure_shape]].
    destruct (truthy _); [|eexists; split; [reflexivity | apply failure_shape]].
    destruct (any_keyword_in _ _ _) as [e|[|]];
      (eexists; split; [reflexivity|]); try apply failure_shape.
    cbn [fst]. destruct (run_query _); [apply failure_shape | apply success_shape; discriminate].
  - rewrite write_neo4j_cypher_paths.
    destruct (arguments request) as [args|]; cbv zeta;
      [|eexists; split; [reflexivity | apply failure_shape]].
    destruct (truthy _); [|eexists; split; [reflexivity | apply failure_shape]].
    destruct (any_keyword_in _ _ _) as [e|[|]];
      (eexists; split; [reflexivity|]); try apply failure_shape.
    cbn [fst]. destruct (run_query _); [apply failure_shape | apply success_shape; discriminate].
Qed.

(** C7: when the write endpoint made its driver call and the call returned,
    the response is a success whose data is the dict of exactly the seven
    keys nodesCreated, nodesDeleted, relationshipsCreated,
    relationshipsDeleted, propertiesSet, labelsAdded, labelsRemoved, each
    holding the counter of the same name from the summary; the rows and the
    column names of the result do not appear in it. *)
Theorem write_success_returns_counters (request : ToolRequest)
    (log : list db_call) (call : db_call) (r : QueryResult) :
  log_after (write_neo4j_cypher upper environ run_query request) log
  = (log ++ [call])%list ->
  run_query call = inr r ->
  outcome (write_neo4j_cypher upper environ run_query request) log =
  inr {| success := true;
         data :=
           VDict
             [ ("nodesCreated", VInt (nodes_created (counters (summary r))));
               ("nodesDeleted", VInt (nodes_deleted (counters (summary r))));
               ("relationshipsCreated",
                 VInt (relationships_created (counters (summary r))));
               ("relationshipsDeleted",
                 VInt (relationships_deleted (counters (summary r))));
               ("propertiesSet", VInt (properties_set (counters (summary r))));
               ("labelsAdded", VInt (labels_added (counters (summary r))));
               ("labelsRemoved", VInt (labels_removed (counters (summary r)))) ];
         error := None |}.
Proof.
  unfold log_after, outcome. rewrite write_neo4j_cypher_paths.
  destruct (arguments request) as [args|]; cbv zeta; cbn [fst snd];
    [|intros Hlog; now apply log_not_extended in Hlog].
  destruct (truthy _);
    [|cbn [fst snd]; intros Hlog; now apply log_not_extended in Hlog].
  destruct (any_keyword_in _ _ _) as [e'|[|]]; cbn [fst snd]; intros Hlog;
    try (now apply log_not_extended in Hlog).
  apply app_inj_tail in Hlog. destruct Hlog as [_ ->].
  intros Hrun. rewrite Hrun. reflexivity.
Qed.

(** C8: when the driver call of the schema endpoint returns, the response is
    a success; its data is the [value] field of the first record when there
    is a record (the empty dict if that record has no such field), and the
    empty dict when there is no record. *)
Theorem schema_success_first_value (request : ToolRequest)
    (log : list db_call) (r : QueryResult) :
  run_query (schema_call environ) = inr r ->
  get_neo4j_schema environ run_query request log =
  (inr {| success := true;
          data :=
            match records r with
            | [] => VDict []
            | first :: _ =>
                match dict_lookup first "value" with
                | Some v => v
                | None => VDict []
                end
            end;
          error := None |},
   (log ++ [schema_call environ])%list).
Proof.
  intros Hrun. rewrite get_neo4j_schema_paths, Hrun.
  destruct (records r) as [|first rest]; [reflexivity|].
  now rewrite dict_get_lookup.
Qed.

End EndpointFacts.

(** C9: the answer of the schema endpoint does not depend on the request:
    two requests, whatever their arguments (a mapping or none), run against
    drivers that answer the schema call alike, get the same response and
    leave the same log. *)
Theorem schema_ignores_request (environ : string -> option string)
    (run_query1 run_query2 : db_call -> exn + QueryResult)
    (request1 request2 : ToolRequest) (log : list db_call) :
  run_query1 (schema_call environ) = run_query2 (schema_call environ) ->
  get_neo4j_schema environ run_query1 request1 log =
  get_neo4j_schema environ run_query2 request2 log.
Proof.
  intros Hsame. rewrite !get_neo4j_schema_paths, Hsame. reflexivity.
Qed.

(** * The endpoints on concrete requests *)

Import Demo.

(** A MATCH that filters on a property named [created] counts as a write. *)
Example created_property_is_write :
  any_keyword_in ascii_upper
    (VStr "MATCH (n) WHERE n.created > 0 RETURN n") write_keywords = inr true.
Proof. reflexivity. Qed.

Example plain_match_is_read :
  any_keyword_in ascii_upper (VStr "match (n) return n limit 1") write_keywords
  = inr false.
Proof. reflexivity. Qed.

(** A read on the empty graph. *)
Example read_on_empty_graph :
  outcome (read_neo4j_cypher ascii_upper no_environ empty_graph
             (request_of (VStr "MATCH (n) RETURN n LIMIT 1"))) []
  = inr {| success := true; data := VList []; error := None |}.
Proof. reflexivity. Qed.

(** A request body without [arguments] takes the default [{}]. *)
Example default_arguments_missing_query :
  read_neo4j_cypher ascii_upper no_environ empty_graph {| arguments := Some [] |} []
  = (inr {| success := false; data := VNone;
            error := Some "Query parameter is required" |}, []).
Proof.
  apply (missing_query_rejected ascii_upper no_environ empty_graph ReadCypher
           {| arguments := Some [] |} []);
    [discriminate | reflexivity | exact I].
Defined.

(** The schema endpoint on a record whose [value] is null: a success with
    neither data nor error, so not every response has one of the two
    populated. *)
Lemma null_schema_value_neither_populated :
  outcome (post_tool ascii_upper no_environ null_schema GetSchema
             {| arguments := Some [] |}) []
  = inr {| success := true; data := VNone; error := None |} /\
  ~ (forall (upper : string -> string) (environ : string -> option string)
            (run_query : db_call -> exn + QueryResult) (t : tool)
            (request : ToolRequest) (log : list db_call),
       exists r : ToolResponse,
         outcome (post_tool upper environ run_query t request) log = inr r /\
         envelope_invariant r /\
         (success_data r \/ failure_error r) /\
         ~ (success_data r /\ failure_error r)).
Proof.
  split; [reflexivity|]. intros H.
  destruct (H ascii_upper no_environ null_schema GetSchema
              {| arguments := Some [] |} [])
    as (r & Hout & _ & [Hs|Hf] & _).
  - vm_compute in Hout. injection Hout as <-.
    destruct Hs as (_ & Hd & _). now apply Hd.
  - vm_compute in Hout. injection Hout as <-.
    destruct Hf as (Hf & _). discriminate Hf.
Qed.

Lemma read_rejects_write_query_witness :
  read_neo4j_cypher ascii_upper no_environ empty_graph
    (request_of (VStr "CREATE (n) RETURN n")) []
  = (inr {| success := false; data := VNone;
            error := Some "Only MATCH queries are allowed for read-query" |},
     []).
Proof.
  apply (read_rejects_write_query ascii_upper no_environ empty_graph
           (request_of (VStr "CREATE (n) RETURN n"))
           [("query", VStr "CREATE (n) RETURN n")] "CREATE (n) RETURN n");
    [reflexivity | reflexivity | discriminate | reflexivity].
Defined.

Lemma write_rejects_read_query_witness :
  write_neo4j_cypher ascii_upper no_environ empty_graph
    (request_of (VStr "MATCH (n) RETURN n LIMIT 1")) []
  = (inr {| success := false; data := VNone;
            error := Some "Only write queries are allowed for write-query" |},
     []).
Proof.
  apply (write_rejects_read_query ascii_upper no_environ empty_graph
           (request_of (VStr "MATCH (n) RETURN n LIMIT 1"))
           [("query", VStr "MATCH (n) RETURN n LIMIT 1")]
           "MATCH (n) RETURN n LIMIT 1");
    [reflexivity | reflexivity | discriminate | reflexivity].
Defined.

Lemma driver_exception_reported_witness :
  outcome (post_tool ascii_upper no_environ without_apoc GetSchema
             {| arguments := Some [] |}) []
  = inr {| success := false; data := VNone;
           error := Some "Neo4j instance does not have the APOC plugin installed. Please install and enable the APOC plugin." |}
  /\
  outcome (post_tool ascii_upper no_environ unavailable ReadCypher
             (request_of (VStr "MATCH (n) RETURN n"))) []
  = inr {| success := false; data := VNone;
           error := Some "Neo4j Error: Unable to retrieve routing information" |}.
Proof.
  split.
  - exact (driver_exception_reported ascii_upper no_environ without_apoc
             GetSchema {| arguments := Some [] |} []
             (schema_call no_environ)
             (Exn "ClientError"
                "{code: Neo.ClientError.Procedure.ProcedureNotFound} {message: There is no procedure with the name `apoc.meta.schema` registered for this database instance.}")
             eq_refl eq_refl).
  - exact (driver_exception_reported ascii_upper no_environ unavailable
             ReadCypher (request_of (VStr "MATCH (n) RETURN n")) []
             (query_call no_environ READ [("query", VStr "MATCH (n) RETURN n")])
             (Exn "ServiceUnavailable" "Unable to retrieve routing information")
             eq_refl eq_refl).
Defined.

Lemma write_success_returns_counters_witness :
  outcome (write_neo4j_cypher ascii_upper no_environ empty_graph
             (request_of (VStr "CREATE (n:Test) RETURN n"))) []
  = inr {| success := true;
           data := VDict [ ("nodesCreated", VInt 1); ("nodesDeleted", VInt 0);
                           ("relationshipsCreated", VInt 0);
                           ("relationshipsDeleted", VInt 0);
                           ("propertiesSet", VInt 0); ("labelsAdded", VInt 1);
                           ("labelsRemoved", VInt 0) ];
           error := None |}.
Proof.
  exact (write_success_returns_counters ascii_upper no_environ empty_graph
           (request_of (VStr "CREATE (n:Test) RETURN n")) []
           (query_call no_environ WRITE [("query", VStr "CREATE (n:Test) RETURN n")])
           _ eq_refl eq_refl).
Defined.

Lemma schema_success_first_value_witness :
  get_neo4j_schema no_environ with_apoc {| arguments := None |} []
  = (inr {| success := true; data := apoc_schema; error := None |},
     [schema_call no_environ]).
Proof.
  exact (schema_success_first_value no_environ with_apoc
           {| arguments := None |} [] _ eq_refl).
Defined.

Lemma schema_ignores_request_witness :
  get_neo4j_schema no_environ with_apoc {| arguments := None |} []
  = get_neo4j_schema no_environ with_apoc
      (request_of (VStr "MATCH (n) RETURN n")) [].
Proof.
  apply (schema_ignores_request no_environ with_apoc with_apoc). reflexivity.
Defined.

Lemma non_string_query_caught_witness :
  post_tool ascii_upper no_environ empty_graph WriteCypher
    (request_of (VInt 5)) []
  = (inr {| success := false; data := VNone;
            error := Some "Neo4j Error: 'int' object has no attribute 'upper'" |},
     []).
Proof.
  apply (non_string_query_caught ascii_upper no_environ empty_graph WriteCypher
           (request_of (VInt 5)) [("query", VInt 5)] (VInt 5));
    [discriminate | reflexivity | reflexivity | reflexivity | reflexivity].
Defined.

(** * Further properties of the endpoints *)

Lemma string_length_append (a b : string) :
  String.length (a ++ b) = String.length a + String.length b.
Proof. induction a as [|c a IH]; simpl; [reflexivity | now rewrite IH]. Qed.

Lemma string_length_zero (s : string) : String.length s = 0 -> s = "".
Proof. destruct s; [reflexivity | discriminate]. Qed.

Lemma ascii_upper_append (a b : string) :
  ascii_upper (a ++ b) = ascii_upper a ++ ascii_upper b.
Proof. induction a as [|c a IH]; simpl; [reflexivity | now rewrite IH]. Qed.

Lemma truthy_str (q : string) : truthy (VStr q) = true <-> q <> "".
Proof.
  simpl. destruct (String.eqb_spec q ""); cbn; split; intros; congruence.
Qed.

Lemma dict_get_some (d : list (string * value)) (key : string) (v : value) :
  v <> VNone ->
  dict_get d key VNone = v -> dict_lookup d key = Some v.
Proof.
  intros Hv. rewrite dict_get_lookup.
  destruct (dict_lookup d key); intros H; congruence.
Qed.

Section GateFacts.

Variable upper : string -> string.

Lemma any_keyword_in_returns_on_str (v : value) (b : bool) :
  any_keyword_in upper v write_keywords = inr b -> exists q, v = VStr q.
Proof.
  destruct v; try (intros H; discriminate H). intros _. now eexists.
Qed.

Lemma keyword_test_true (q : string) :
  any_keyword_in upper (VStr q) write_keywords = inr true ->
  exists keyword, In keyword write_keywords /\ Substring keyword (upper q).
Proof.
  rewrite any_keyword_in_str. intros H.
  assert (existsb (fun keyword => str_in keyword (upper q)) write_keywords = true)
    as Hex by congruence.
  apply existsb_exists in Hex. destruct Hex as (k & Hin & Hk).
  exists k. split; [exact Hin | now apply str_in_iff_Substring].
Qed.

Lemma keyword_test_false (q : string) :
  any_keyword_in upper (VStr q) write_keywords = inr false ->
  forall keyword, In keyword write_keywords -> ~ Substring keyword (upper q).
Proof.
  rewrite any_keyword_in_str. intros H k Hin Hk.
  assert (existsb (fun keyword => str_in keyword (upper q)) write_keywords = true)
    as Ht by (apply existsb_exists; exists k; split;
              [exact Hin | now apply str_in_iff_Substring]).
  congruence.
Qed.

(** When [upper] is [ascii_upper] on ASCII text, an ASCII text that contains
    [word] is uppercased to a text that contains [ascii_upper word]. *)
Lemma keyword_test_any_case (pre word post : string) :
  (forall s, is_ascii s = true -> upper s = ascii_upper s) ->
  is_ascii (pre ++ word ++ post) = true ->
  In (ascii_upper word) write_keywords ->
  any_keyword_in upper (VStr (pre ++ word ++ post)) write_keywords = inr true
  /\ pre ++ word ++ post <> "".
Proof.
  intros Hascii Hq Hin. split.
  - rewrite any_keyword_in_str. f_equal. apply existsb_exists.
    exists (ascii_upper word). split; [exact Hin|].
    apply str_in_iff_Substring.
    exists (ascii_upper pre), (ascii_upper post).
    now rewrite (Hascii _ Hq), !ascii_upper_append.
  - intros Hempty.
    assert (word = "") as ->.
    { apply string_length_zero.
      apply (f_equal String.length) in Hempty.
      rewrite !string_length_append in Hempty. simpl in Hempty. lia. }
    simpl in Hin.
    repeat (destruct Hin as [Hin|Hin]; [discriminate Hin|]). exact Hin.
Qed.

End GateFacts.

Section CallFacts.

Variable upper : string -> string.
Variable environ : string -> option string.
Variable run_query : db_call -> exn + QueryResult.

(** What a logged call of the read endpoint tells about the request. *)
Lemma read_call_inversion (request : ToolRequest) (log : list db_call)
    (call : db_call) :
  log_after (read_neo4j_cypher upper environ run_query request) log
  = (log ++ [call])%list ->
  exists args q,
    arguments request = Some args /\
    dict_get args "query" VNone = VStr q /\
    q <> "" /\
    any_keyword_in upper (VStr q) write_keywords = inr false /\
    call = query_call environ READ args.
Proof.
  unfold log_after. rewrite read_neo4j_cypher_paths.
  destruct (arguments request) as [args|]; cbv zeta; cbn [snd];
    [|intros Hlog; now apply log_not_extended in Hlog].
  destruct (truthy _) eqn:Htr;
    [|cbn [snd]; intros Hlog; now apply log_not_extended in Hlog].
  destruct (any_keyword_in _ _ _) as [e|[|]] eqn:Hany; cbn [snd]; intros Hlog;
    try (now apply log_not_extended in Hlog).
  apply app_inj_tail in Hlog. destruct Hlog as [_ <-].
  destruct (any_keyword_in_returns_on_str upper _ _ Hany) as [q Hq].
  rewrite Hq in Htr, Hany. exists args, q.
  repeat split; auto. now apply truthy_str.
Qed.

(** The same for the write endpoint. *)
Lemma write_call_inversion (request : ToolRequest) (log : list db_call)
    (call : db_call) :
  log_after (write_neo4j_cypher upper environ run_query request) log
  = (log ++ [call])%list ->
  exists args q,
    arguments request = Some args /\
    dict_get args "query" VNone = VStr q /\
    q <> "" /\
    any_keyword_in upper (VStr q) write_keywords = inr true /\
    call = query_call environ WRITE args.
Proof.
  unfold log_after. rewrite write_neo4j_cypher_paths.
  destruct (arguments request) as [args|]; cbv zeta; cbn [snd];
    [|intros Hlog; now apply log_not_extended in Hlog].
  destruct (truthy _) eqn:Htr;
    [|cbn [snd]; intros Hlog; now apply log_not_extended in Hlog].
  destruct (any_keyword_in _ _ _) as [e|[|]] eqn:Hany; cbn [snd]; intros Hlog;
    try (now apply log_not_extended in Hlog).
  apply app_inj_tail in Hlog. destruct Hlog as [_ <-].
  destruct (any_keyword_in_returns_on_str upper _ _ Hany) as [q Hq].
  rewrite Hq in Htr, Hany. exists args, q.
  repeat split; auto. now apply truthy_str.
Qed.

(** X1: when the read endpoint made its driver call and the call returned,
    the response is a success whose data is the list of all rows, each as
    the dict the driver gave, in the driver's order; the summary and the
    column names are not used. *)
Theorem read_success_returns_rows (request : ToolRequest)
    (log : list db_call) (call : db_call) (r : QueryResult) :
  log_after (read_neo4j_cypher upper environ run_query request) log
  = (log ++ [call])%list ->
  run_query call = inr r ->
  outcome (read_neo4j_cypher upper environ run_query request) log =
  inr {| success := true;
         data := VList (List.map VDict (records r));
         error := None |}.
Proof.
  intros Hlog Hrun.
  destruct (read_call_inversion request log call Hlog)
    as (args & q & Hargs & Hget & Hne & Hany & ->).
  unfold outcome. rewrite read_neo4j_cypher_paths, Hargs. cbv zeta.
  rewrite Hget, (proj2 (truthy_str q) Hne), Hany, Hrun. reflexivity.
Qed.

(** X2: every call the read endpoint hands to the driver carries, as its
    query, a non-empty string in whose uppercased text none of the six
    keywords occurs: a text with one of them is never handed on. *)
Theorem read_forwards_only_keyword_free_queries (request : ToolRequest)
    (log : list db_call) (call : db_call) :
  log_after (read_neo4j_cypher upper environ run_query request) log
  = (log ++ [call])%list ->
  exists q,
    query_ call = VStr q /\ q <> "" /\
    forall keyword,
      In keyword ["MERGE"; "CREATE"; "SET"; "DELETE"; "REMOVE"; "ADD"] ->
      ~ Substring keyword (upper q).
Proof.
  intros Hlog.
  destruct (read_call_inversion request log call Hlog)
    as (args & q & Hargs & Hget & Hne & Hany & ->).
  exists q. cbn [query_call query_].
  repeat split; auto. exact (keyword_test_false upper q Hany).
Qed.

(** X3: every call the write endpoint sends to the driver is routed WRITE
    and carries a non-empty query string in whose uppercased text one of the
    six keywords occurs. *)
Theorem write_forwards_only_keyword_queries (request : ToolRequest)
    (log : list db_call) (call : db_call) :
  log_after (write_neo4j_cypher upper environ run_query request) log
  = (log ++ [call])%list ->
  routing_control call = WRITE /\
  exists q,
    query_ call = VStr q /\ q <> "" /\
    exists keyword,
      In keyword ["MERGE"; "CREATE"; "SET"; "DELETE"; "REMOVE"; "ADD"] /\
      Substring keyword (upper q).
Proof.
  intros Hlog.
  destruct (write_call_inversion request log call Hlog)
    as (args & q & Hargs & Hget & Hne & Hany & ->).
  split; [reflexivity|]. exists q. cbn [query_call query_].
  repeat split; auto. exact (keyword_test_true upper q Hany).
Qed.

(** X5: a request whose [query] is a non-empty string is handed to the
    driver by exactly one of the two query endpoints: either the read
    endpoint makes its one call with that string as the query and the write
    endpoint refuses the request without a call, or the write endpoint makes
    its one call with that string and the read endpoint refuses the request
    without a call. *)
Theorem exactly_one_query_endpoint_forwards (request : ToolRequest)
    (args : list (string * value)) (q : string) (log : list db_call) :
  arguments request = Some args ->
  dict_lookup args "query" = Some (VStr q) ->
  q <> "" ->
  (exists call,
     log_after (read_neo4j_cypher upper environ run_query request) log
     = (log ++ [call])%list /\
     query_ call = VStr q /\
     write_neo4j_cypher upper environ run_query request log
     = (inr {| success := false; data := VNone;
               error := Some "Only write queries are allowed for write-query" |},
        log))
  \/
  (exists call,
     log_after (write_neo4j_cypher upper environ run_query request) log
     = (log ++ [call])%list /\
     query_ call = VStr q /\
     read_neo4j_cypher upper environ run_query request log
     = (inr {| success := false; data := VNone;
               error := Some "Only MATCH queries are allowed for read-query" |},
        log)).
Proof.
  intros Hargs Hq Hne.
  destruct (query_gate_on_string args q Hq Hne) as [Hget Htr].
  unfold log_after.
  rewrite read_neo4j_cypher_paths, write_neo4j_cypher_paths, Hargs. cbv zeta.
  rewrite Hget, Htr, any_keyword_in_str.
  destruct (existsb _ write_keywords); [right | left]; eexists;
    (split; [reflexivity|]); (split; [exact Hget | reflexivity]).
Qed.

(** X6: the call a query endpoint sends carries the request's [query] value
    itself (not its uppercased text), the request's [params] or the empty
    dict when the key is absent, and the request's [database] or, when the
    key is absent, NEO4J_DATABASE from the environment or "neo4j".  A key
    given as null is passed on as None, not replaced by the default. *)
Theorem query_call_forwards_arguments (t : tool) (request : ToolRequest)
    (log : list db_call) (call : db_call) :
  t <> GetSchema ->
  log_after (post_tool upper environ run_query t request) log
  = (log ++ [call])%list ->
  exists args,
    arguments request = Some args /\
    dict_lookup args "query" = Some (query_ call) /\
    parameters_ call
    = Some match dict_lookup args "params" with
           | Some params => params
           | None => VDict []
           end /\
    database_ call
    = match dict_lookup args "database" with
      | Some database => database
      | None => VStr match environ "NEO4J_DATABASE" with
                     | Some name => name
                     | None => "neo4j"
                     end
      end.
Proof.
  intros Ht Hlog. destruct t; [contradiction| |]; cbn [post_tool] in Hlog.
  - destruct (read_call_inversion request log call Hlog)
      as (args & q & Hargs & Hget & Hne & Hany & ->).
    exists args. cbn [query_call query_ parameters_ database_].
    rewrite Hget, !dict_get_lookup. repeat split; auto.
    apply dict_get_some; [discriminate | exact Hget].
  - destruct (write_call_inversion request log call Hlog)
      as (args & q & Hargs & Hget & Hne & Hany & ->).
    exists args. cbn [query_call query_ parameters_ database_].
    rewrite Hget, !dict_get_lookup. repeat split; auto.
    apply dict_get_some; [discriminate | exact Hget].
Qed.

Ltac pick_message :=
  eexists; split;
  [ reflexivity
  | first [ left; eexists; reflexivity
          | right; first [ reflexivity | left; reflexivity | right; reflexivity ] ] ].

(** X8: the messages of a failure.  The schema endpoint fails only with the
    APOC message or a text that starts with "Neo4j Error: "; the read
    endpoint only with "Query parameter is required", its gate message or a
    "Neo4j Error: " text; the write endpoint likewise with its own gate
    message. *)
Theorem failure_messages (t : tool) (request : ToolRequest)
    (log : list db_call) (r : ToolResponse) :
  outcome (post_tool upper environ run_query t request) log = inr r ->
  success r = false ->
  exists msg,
    error r = Some msg /\
    ((exists text, msg = "Neo4j Error: " ++ text) \/
     match t with
     | GetSchema =>
         msg = "Neo4j instance does not have the APOC plugin installed. Please install and enable the APOC plugin."
     | ReadCypher =>
         msg = "Query parameter is required" \/
         msg = "Only MATCH queries are allowed for read-query"
     | WriteCypher =>
         msg = "Query parameter is required" \/
         msg = "Only write queries are allowed for write-query"
     end).
Proof.
  unfold outcome. destruct t; cbn [post_tool].
  - rewrite get_neo4j_schema_paths. cbn [fst].
    destruct (run_query _) as [e|res].
    + intros H _. injection H as <-. cbn [response_error error].
      destruct (str_in _ _); pick_message.
    + destruct (records res); intros H Hs; injection H as <-; discriminate Hs.
  - rewrite read_neo4j_cypher_paths.
    destruct (arguments request) as [args|]; cbv zeta.
    + destruct (truthy _).
      * destruct (any_keyword_in _ _ _) as [e|[|]]; cbn [fst].
        -- intros H _. injection H as <-. pick_message.
        -- intros H _. injection H as <-. pick_message.
        -- destruct (run_query _); intros H Hs; injection H as <-;
             [|discriminate Hs].
           pick_message.
      * intros H _. injection H as <-. pick_message.
    + intros H _. injection H as <-. pick_message.
  - rewrite write_neo4j_cypher_paths.
    destruct (arguments request) as [args|]; cbv zeta.
    + destruct (truthy _).
      * destruct (any_keyword_in _ _ _) as [e|[|]]; cbn [fst].
        -- intros H _. injection H as <-. pick_message.
        -- destruct (run_query _); intros H Hs; injection H as <-;
             [|discriminate Hs].
           pick_message.
        -- intros H _. injection H as <-. pick_message.
      * intros H _. injection H as <-. pick_message.
    + intros H _. injection H as <-. pick_message.
Qed.

(** X9: a success is never made up: when an endpoint answers success=true,
    it made exactly one driver call and the driver returned on it. *)
Theorem success_requires_driver_result (t : tool) (request : ToolRequest)
    (log : list db_call) (r : ToolResponse) :
  outcome (post_tool upper environ run_query t request) log = inr r ->
  success r = true ->
  exists call result,
    log_after (post_tool upper environ run_query t request) log
    = (log ++ [call])%list /\
    run_query call = inr result.
Proof.
  unfold outcome, log_after. destruct t; cbn [post_tool].
  - rewrite get_neo4j_schema_paths. cbn [fst snd].
    destruct (run_query (schema_call environ)) as [e|res] eqn:Hrun.
    + intros H Hs. injection H as <-. discriminate Hs.
    + intros _ _. now exists (schema_call environ), res.
  - rewrite read_neo4j_cypher_paths.
    destruct (arguments request) as [args|]; cbv zeta;
      [|intros H Hs; injection H as <-; discriminate Hs].
    destruct (truthy _); [|intros H Hs; injection H as <-; discriminate Hs].
    destruct (any_keyword_in _ _ _) as [e|[|]]; cbn [fst snd];
      try (intros H Hs; injection H as <-; discriminate Hs).
    destruct (run_query (query_call environ READ args)) as [e|res] eqn:Hrun;
      [intros H Hs; injection H as <-; discriminate Hs|].
    intros _ _. now exists (query_call environ READ args), res.
  - rewrite write_neo4j_cypher_paths.
    destruct (arguments request) as [args|]; cbv zeta;
      [|intros H Hs; injection H as <-; discriminate Hs].
    destruct (truthy _); [|intros H Hs; injection H as <-; discriminate Hs].
    destruct (any_keyword_in _ _ _) as [e|[|]]; cbn [fst snd];
      try (intros H Hs; injection H as <-; discriminate Hs).
    destruct (run_query (query_call environ WRITE args)) as [e|res] eqn:Hrun;
      [intros H Hs; injection H as <-; discriminate Hs|].
    intros _ _. now exists (query_call environ WRITE args), res.
Qed.

(** X10: on ASCII text, where [str.upper] turns a-z into A-Z and keeps the
    rest, the read endpoint refuses every query in which a word occurs whose
    uppercase is one of the six keywords, whatever the letter case of the
    word and whatever surrounds it; no driver call is made. *)
Theorem read_rejects_keyword_in_any_case (request : ToolRequest)
    (args : list (string * value)) (pre word post : string)
    (log : list db_call) :
  (forall s, is_ascii s = true -> upper s = ascii_upper s) ->
  is_ascii (pre ++ word ++ post) = true ->
  In (ascii_upper word) ["MERGE"; "CREATE"; "SET"; "DELETE"; "REMOVE"; "ADD"] ->
  arguments request = Some args ->
  dict_lookup args "query" = Some (VStr (pre ++ word ++ post)) ->
  read_neo4j_cypher upper environ run_query request log =
  (inr {| success := false; data := VNone;
          error := Some "Only MATCH queries are allowed for read-query" |},
   log).
Proof.
  intros Hascii Hq Hin Hargs Hlook.
  destruct (keyword_test_any_case upper pre word post Hascii Hq Hin)
    as [Hany Hne].
  destruct (query_gate_on_string args _ Hlook Hne) as [Hget Htr].
  rewrite read_neo4j_cypher_paths, Hargs. cbv zeta.
  rewrite Hget, Htr, Hany. reflexivity.
Qed.

End CallFacts.

(** * The process: before, at and after startup *)

Section ProcessFacts.

Variable upper : string -> string.
Variable environ : string -> option string.
Variable Driver : Type.
Variable McpServer : Type.
Variable new_driver : string -> string * string -> exn + Driver.
Variable create_mcp_server : Driver -> string -> string -> exn + McpServer.
Variable run_query : Driver -> db_call -> exn + QueryResult.
Variable close : Driver -> option exn.

Local Notation "'Globals'" := (App.Globals Driver McpServer).

(** Once the global holds a driver, the endpoints are the handlers run
    against that driver. *)
Lemma post_tool_with_driver (g : Globals) (driver : Driver) (t : tool)
    (request : ToolRequest) (log : list db_call) :
  App.neo4j_driver _ _ g = Some driver ->
  App.post_tool upper environ Driver McpServer run_query g t request log
  = post_tool upper environ (run_query driver) t request log.
Proof.
  intros Hd. destruct t; cbn [App.post_tool post_tool];
    unfold App.get_neo4j_schema, App.read_neo4j_cypher, App.write_neo4j_cypher,
      get_neo4j_schema, read_neo4j_cypher, write_neo4j_cypher,
      App.driver_execute_query;
    rewrite Hd; reflexivity.
Qed.


(** X13: after a startup that returned, shutdown calls [close] once, on the
    driver that startup built from NEO4J_URI, NEO4J_USERNAME and
    NEO4J_PASSWORD (or bolt://localhost:7687, neo4j, password), and on no
    other; it returns or raises as that [close] does. *)
Theorem shutdown_closes_started_driver (g g' : Globals) (closed : list Driver) :
  App.startup_event environ Driver McpServer new_driver create_mcp_server g
  = (None, g') ->
  exists driver,
    new_driver
      match environ "NEO4J_URI" with
      | Some url => url
      | None => "bolt://localhost:7687"
      end
      (match environ "NEO4J_USERNAME" with Some u => u | None => "neo4j" end,
       match environ "NEO4J_PASSWORD" with Some p => p | None => "password" end)
    = inr driver /\
    App.shutdown_event Driver McpServer close g' closed
    = (close driver, (closed ++ [driver])%list).
Proof.
  unfold App.startup_event, App.initialize, App.shutdown_event, os_getenv.
  cbv zeta. destruct (new_driver _ _) as [e|driver]; [discriminate|].
  destruct (create_mcp_server _ _ _) as [e|server]; [discriminate|].
  intros H. injection H as <-. now exists driver.
Qed.


(** The shutdown handler leaves the driver alone when there is none: on the
    globals as they are at import it calls no [close] and returns. *)
Lemma shutdown_without_driver (g : Globals) (closed : list Driver) :
  App.neo4j_driver _ _ g = None ->
  App.shutdown_event Driver McpServer close g closed = (None, closed).
Proof. unfold App.shutdown_event. now intros ->. Qed.

(** X15: one default database.  After a startup that returned, the MCP
    server was built for the database NEO4J_DATABASE of the environment, or
    "neo4j" when it is not set, and every call an endpoint sends for a
    request that names no database (for the schema endpoint: every call)
    names that same database. *)
Theorem default_database_shared (g g' : Globals) (t : tool)
    (request : ToolRequest) (log : list db_call) (call : db_call) :
  App.startup_event environ Driver McpServer new_driver create_mcp_server g
  = (None, g') ->
  log_after
    (App.post_tool upper environ Driver McpServer run_query g' t request) log
  = (log ++ [call])%list ->
  (t = GetSchema \/
   exists args, arguments request = Some args /\
                dict_lookup args "database" = None) ->
  exists driver server,
    App.neo4j_driver _ _ g' = Some driver /\
    App.mcp_server _ _ g' = Some server /\
    create_mcp_server driver
      match environ "NEO4J_DATABASE" with Some d => d | None => "neo4j" end
      match environ "NEO4J_NAMESPACE" with Some n => n | None => "" end
    = inr server /\
    database_ call
    = VStr match environ "NEO4J_DATABASE" with
           | Some d => d
           | None => "neo4j"
           end.
Proof.
  intros Hstart Hlog Hdb.
  unfold App.startup_event, App.initialize, os_getenv in Hstart.
  cbv zeta in Hstart.
  destruct (new_driver _ _) as [e|driver]; [discriminate|].
  destruct (create_mcp_server _ _ _) as [e|server] eqn:Hsrv; [discriminate|].
  injection Hstart as <-.
  exists driver, server.
  repeat split; [exact Hsrv|].
  unfold log_after in Hlog.
  rewrite (post_tool_with_driver _ driver) in Hlog by reflexivity.
  fold (log_after (post_tool upper environ (run_query driver) t request) log)
    in Hlog.
  destruct t; cbn [post_tool] in Hlog.
  - unfold log_after in Hlog. rewrite get_neo4j_schema_paths in Hlog.
    cbn [snd] in Hlog. apply app_inj_tail in Hlog. destruct Hlog as [_ <-].
    reflexivity.
  - destruct Hdb as [Hd|(args & Hargs & Hnone)]; [discriminate|].
    destruct (read_call_inversion _ _ _ _ _ _ Hlog)
      as (args' & q & Hargs' & _ & _ & _ & ->).
    assert (args' = args) as -> by congruence.
    cbn [query_call database_]. rewrite dict_get_lookup, Hnone. reflexivity.
  - destruct Hdb as [Hd|(args & Hargs & Hnone)]; [discriminate|].
    destruct (write_call_inversion _ _ _ _ _ _ Hlog)
      as (args' & q & Hargs' & _ & _ & _ & ->).
    assert (args' = args) as -> by congruence.
    cbn [query_call database_]. rewrite dict_get_lookup, Hnone. reflexivity.
Qed.

End ProcessFacts.

(** * The further properties on concrete requests *)

Lemma read_success_returns_rows_witness :
  outcome (read_neo4j_cypher ascii_upper no_environ people
             (request_of (VStr "MATCH (p:Person) RETURN p.name AS name"))) []
  = inr {| success := true;
           data := VList [VDict [("name", VStr "Ada")];
                          VDict [("name", VStr "Alan")]];
           error := None |}.
Proof.
  exact (read_success_returns_rows ascii_upper no_environ people
           (request_of (VStr "MATCH (p:Person) RETURN p.name AS name")) []
           (query_call no_environ READ
              [("query", VStr "MATCH (p:Person) RETURN p.name AS name")])
           _ eq_refl eq_refl).
Defined.

Lemma read_forwards_only_keyword_free_queries_witness :
  exists q,
    VStr "MATCH (n) RETURN n LIMIT 1" = VStr q /\ q <> "" /\
    forall keyword,
      In keyword ["MERGE"; "CREATE"; "SET"; "DELETE"; "REMOVE"; "ADD"] ->
      ~ Substring keyword (ascii_upper q).
Proof.
  exact (read_forwards_only_keyword_free_queries ascii_upper no_environ
           empty_graph (request_of (VStr "MATCH (n) RETURN n LIMIT 1")) []
           (query_call no_environ READ
              [("query", VStr "MATCH (n) RETURN n LIMIT 1")])
           eq_refl).
Defined.

Lemma write_forwards_only_keyword_queries_witness :
  routing_control (query_call no_environ WRITE
                     [("query", VStr "create (n:Test) return n")]) = WRITE /\
  exists q,
    VStr "create (n:Test) return n" = VStr q /\ q <> "" /\
    exists keyword,
      In keyword ["MERGE"; "CREATE"; "SET"; "DELETE"; "REMOVE"; "ADD"] /\
      Substring keyword (ascii_upper q).
Proof.
  exact (write_forwards_only_keyword_queries ascii_upper no_environ
           empty_graph (request_of (VStr "create (n:Test) return n")) []
           (query_call no_environ WRITE
              [("query", VStr "create (n:Test) return n")])
           eq_refl).
Defined.

Lemma exactly_one_query_endpoint_forwards_witness :
  let request := request_of (VStr "MATCH (n) WHERE n.created > 0 RETURN n") in
  (exists call,
     log_after (read_neo4j_cypher ascii_upper no_environ empty_graph request) []
     = ([] ++ [call])%list /\
     query_ call = VStr "MATCH (n) WHERE n.created > 0 RETURN n" /\
     write_neo4j_cypher ascii_upper no_environ empty_graph request []
     = (inr {| success := false; data := VNone;
               error := Some "Only write queries are allowed for write-query" |},
        []))
  \/
  (exists call,
     log_after (write_neo4j_cypher ascii_upper no_environ empty_graph request) []
     = ([] ++ [call])%list /\
     query_ call = VStr "MATCH (n) WHERE n.created > 0 RETURN n" /\
     read_neo4j_cypher ascii_upper no_environ empty_graph request []
     = (inr {| success := false; data := VNone;
               error := Some "Only MATCH queries are allowed for read-query" |},
        [])).
Proof.
  cbv zeta.
  apply (exactly_one_query_endpoint_forwards ascii_upper no_environ empty_graph
           (request_of (VStr "MATCH (n) WHERE n.created > 0 RETURN n"))
           [("query", VStr "MATCH (n) WHERE n.created > 0 RETURN n")]
           "MATCH (n) WHERE n.created > 0 RETURN n" []);
    [reflexivity | reflexivity | discriminate].
Defined.

Lemma query_call_forwards_arguments_witness :
  exists args,
    arguments full_request = Some args /\
    dict_lookup args "query"
    = Some (VStr "MATCH (p:Person) WHERE p.name = $name RETURN p") /\
    Some (VDict [("name", VStr "Ada")])
    = Some match dict_lookup args "params" with
           | Some params => params
           | None => VDict []
           end /\
    VStr "people"
    = match dict_lookup args "database" with
      | Some database => database
      | None => VStr match no_environ "NEO4J_DATABASE" with
                     | Some name => name
                     | None => "neo4j"
                     end
      end.
Proof.
  apply (query_call_forwards_arguments ascii_upper no_environ people ReadCypher
           full_request []
           {| query_ := VStr "MATCH (p:Person) WHERE p.name = $name RETURN p";
              parameters_ := Some (VDict [("name", VStr "Ada")]);
              routing_control := READ;
              database_ := VStr "people" |});
    [discriminate | reflexivity].
Defined.

Lemma failure_messages_witness :
  exists msg,
    Some "Neo4j Error: 'int' object has no attribute 'upper'" = Some msg /\
    ((exists text, msg = "Neo4j Error: " ++ text) \/
     (msg = "Query parameter is required" \/
      msg = "Only MATCH queries are allowed for read-query")).
Proof.
  exact (failure_messages ascii_upper no_environ empty_graph ReadCypher
           (request_of (VInt 5)) []
           (response_error "Neo4j Error: 'int' object has no attribute 'upper'")
           eq_refl eq_refl).
Defined.

Lemma success_requires_driver_result_witness :
  exists call result,
    log_after (post_tool ascii_upper no_environ empty_graph WriteCypher
                 (request_of (VStr "CREATE (n:Test) RETURN n"))) []
    = ([] ++ [call])%list /\
    empty_graph call = inr result.
Proof.
  exact (success_requires_driver_result ascii_upper no_environ empty_graph
           WriteCypher (request_of (VStr "CREATE (n:Test) RETURN n")) []
           _ eq_refl eq_refl).
Defined.

Lemma read_rejects_keyword_in_any_case_witness :
  read_neo4j_cypher ascii_upper no_environ empty_graph
    (request_of (VStr "match (n) detach DeLeTe n")) []
  = (inr {| success := false; data := VNone;
            error := Some "Only MATCH queries are allowed for read-query" |},
     []).
Proof.
  apply (read_rejects_keyword_in_any_case ascii_upper no_environ empty_graph
           (request_of (VStr "match (n) detach DeLeTe n"))
           [("query", VStr "match (n) detach DeLeTe n")]
           "match (n) detach " "DeLeTe" " n" []);
    [intros s _; reflexivity | reflexivity | simpl; tauto
    | reflexivity | reflexivity].
Defined.


Lemma shutdown_closes_started_driver_witness :
  exists driver,
    DemoApp.new_driver "bolt://localhost:7687" ("neo4j", "password")
    = inr driver /\
    App.shutdown_event DemoApp.Driver DemoApp.McpServer DemoApp.close
      DemoApp.started []
    = (DemoApp.close driver, ([] ++ [driver])%list).
Proof.
  exact (shutdown_closes_started_driver no_environ DemoApp.Driver
           DemoApp.McpServer DemoApp.new_driver DemoApp.create_mcp_server
           DemoApp.close (App.at_import _ _) DemoApp.started [] eq_refl).
Defined.


Lemma default_database_shared_witness :
  exists driver server,
    App.neo4j_driver _ _ DemoApp.started = Some driver /\
    App.mcp_server _ _ DemoApp.started = Some server /\
    DemoApp.create_mcp_server driver "neo4j" "" = inr server /\
    database_ (query_call no_environ READ [("query", VStr "MATCH (n) RETURN n")])
    = VStr "neo4j".
Proof.
  apply (default_database_shared ascii_upper no_environ DemoApp.Driver
           DemoApp.McpServer DemoApp.new_driver DemoApp.create_mcp_server
           DemoApp.run_query (App.at_import _ _) DemoApp.started ReadCypher
           (request_of (VStr "MATCH (n) RETURN n")) []
           (query_call no_environ READ [("query", VStr "MATCH (n) RETURN n")]));
    [reflexivity | reflexivity |].
  right. exists [("query", VStr "MATCH (n) RETURN n")]. split; reflexivity.
Defined.
